(** * tool-get-weather: the weather lookup handler of [app.go]

    A shallow embedding of [Handler] and [requestOpenWeatherMapAPI] together
    with the parts of the Go runtime they touch: the process environment,
    [fmt.Sprintf] with the verbs [%f] and [%s], one outbound HTTP exchange,
    [io.ReadAll], standard output, the structured logger and the host
    context.  Effects are threaded through an explicit [World]. *)

From Stdlib Require Import ZArith Lia Ascii String Strings.Byte.
From Stdlib Require Import Floats.PrimFloat Floats.SpecFloat Floats.FloatOps.
From stdpp Require Import base option list strings gmap.

Local Open Scope string_scope.
Local Open Scope list_scope.
Local Open Scope Z_scope.

(** ** Go values *)

(** A Go [float64]: sign, zero, infinities, NaN, or [(-1)^s * m * 2^e]. *)
Abbreviation float64 := spec_float.

(** A Go [error], identified with the text of its [Error()] method. *)
Abbreviation error := string (only parsing).

Definition is_number (x : float64) : bool :=
  match x with
  | S754_zero _ | S754_finite _ _ _ => true
  | S754_infinity _ | S754_nan => false
  end.

Definition is_negative (x : float64) : bool :=
  match x with
  | S754_zero s | S754_infinity s | S754_finite s _ _ => s
  | S754_nan => false
  end.

(** ** [fmt]: the verb [%f] *)

Module fmt.

(** The magnitude of a number as a fraction [num / den] of integers. *)
Definition magnitude (x : float64) : Z * Z :=
  match x with
  | S754_finite _ m e => (Z.pos m * 2 ^ Z.max e 0, 2 ^ Z.max (- e) 0)
  | _ => (0, 1)
  end.

(** Nearest integer to [num / den], ties to the even neighbour. *)
Definition round_half_even (num den : Z) : Z :=
  let q := num / den in
  let r := num mod den in
  match 2 * r ?= den with
  | Lt => q
  | Gt => q + 1
  | Eq => if Z.even q then q else q + 1
  end.

Definition digit (d : Z) : ascii := ascii_of_N (48 + Z.to_N d).

Definition digit_val (c : ascii) : Z := Z.of_N (N_of_ascii c) - 48.

Definition is_digit (c : ascii) : bool :=
  ((48 <=? N_of_ascii c) && (N_of_ascii c <=? 57))%N.

(** The [k] low decimal digits of [n], most significant first, put in
    front of [acc]. *)
Fixpoint digits_acc (k : nat) (n : Z) (acc : string) : string :=
  match k with
  | O => acc
  | S k' => digits_acc k' (n / 10) (String (digit (n mod 10)) acc)
  end.

(** Decimal digits of [n] without leading zeros (a single [0] for zero). *)
Fixpoint itoa_fuel (fuel : nat) (n : Z) (acc : string) : string :=
  match fuel with
  | O => acc
  | S fuel' =>
      let acc' := String (digit (n mod 10)) acc in
      if n / 10 =? 0 then acc' else itoa_fuel fuel' (n / 10) acc'
  end.

Definition itoa (n : Z) : string :=
  itoa_fuel (S (Z.to_nat (Z.log2 n))) n "".

(** The number a string of decimal digits denotes. *)
Fixpoint dec_value (s : string) : Z :=
  match s with
  | EmptyString => 0
  | String c r => digit_val c * 10 ^ Z.of_nat (String.length r) + dec_value r
  end.

Fixpoint all_digits (s : string) : bool :=
  match s with
  | EmptyString => true
  | String c r => is_digit c && all_digits r
  end.

(** [q] millionths printed in fixed-point notation. *)
Definition fixed6 (neg : bool) (q : Z) : string :=
  (if neg then "-" else "")
    +:+ itoa (q / 10 ^ 6) +:+ "." +:+ digits_acc 6 (q mod 10 ^ 6) "".

(** The number of millionths [%f] prints for [x]. *)
Definition millionths (x : float64) : Z :=
  let '(num, den) := magnitude x in round_half_even (num * 10 ^ 6) den.

(** [%f] applied to a [float64]: precision 6, the exact binary value
    rounded to nearest-even; the sign bit is printed even when every
    digit is zero; infinities and NaN print as words. *)
Definition fmt_f (x : float64) : string :=
  match x with
  | S754_nan => "NaN"
  | S754_infinity s => if s then "-Inf" else "+Inf"
  | S754_zero s => fixed6 s 0
  | S754_finite s _ _ => fixed6 s (millionths x)
  end.

(** Format strings over the verbs the program uses. *)
Inductive directive :=
| Lit (c : ascii)
| VerbF
| VerbS
| Unsupported.

Fixpoint parse_format (s : string) : list directive :=
  match s with
  | EmptyString => []
  | String "%" (String "f" r) => VerbF :: parse_format r
  | String "%" (String "s" r) => VerbS :: parse_format r
  | String "%" (String "%" r) => Lit "%" :: parse_format r
  | String "%" r => Unsupported :: parse_format r
  | String c r => Lit c :: parse_format r
  end.

(** Operands a format expects, in order; a verb outside the fragment
    expects an operand nobody can supply. *)
Fixpoint sprintf_type (ds : list directive) : Type :=
  match ds with
  | [] => string
  | Lit _ :: r => sprintf_type r
  | VerbF :: r => float64 -> sprintf_type r
  | VerbS :: r => string -> sprintf_type r
  | Unsupported :: r => Empty_set -> sprintf_type r
  end.

Fixpoint sprintf_k (ds : list directive) (k : string -> string)
  : sprintf_type ds :=
  match ds with
  | [] => k ""
  | Lit c :: r => sprintf_k r (fun s => k (String c s))
  | VerbF :: r => fun x => sprintf_k r (fun s => k (fmt_f x +:+ s))
  | VerbS :: r => fun a => sprintf_k r (fun s => k (a +:+ s))
  | Unsupported :: r => fun x => match x with end
  end.

Definition Sprintf (format : string) : sprintf_type (parse_format format) :=
  sprintf_k (parse_format format) (fun s => s).

End fmt.

(** ** The world the handler runs in *)

(** An outbound request as [net/http] sends it. *)
Record Request := mkRequest {
  Method : string;
  URL : string;
  Header : list (string * string)
}.

(** A response body: the bytes the peer delivers and, when the stream
    breaks, the error that ends it. *)
Record ReadCloser := mkReadCloser {
  stream : list byte;
  stream_err : option error
}.

Record Response := mkResponse {
  StatusCode : Z;
  Body : ReadCloser
}.

(** What the process does that an observer can see. *)
Inductive event :=
| EvRequest (req : Request)
| EvBodyClose
| EvStdout (line : string)
| EvWriteLLMResult (result : string)
| EvSlogInfo (msg : string) (attrs : list (string * string)).

(** The process environment, the network (asked for its answer to the
    [n]-th request of the process), the number of requests sent so far and
    the observable events so far. *)
Record World := mkWorld {
  environ : gmap string string;
  network : nat -> Request -> Response + error;
  sent : nat;
  output : list event
}.

(** Computations over the world. *)
Definition M (A : Type) : Type := World -> A * World.

#[global] Instance M_ret : MRet M := fun A a w => (a, w).

#[global] Instance M_bind : MBind M :=
  fun A B k m w => let '(a, w') := m w in k a w'.

Definition emit (e : event) : M unit :=
  fun w => (tt, mkWorld (environ w) (network w) (sent w) (output w ++ [e])).

Module os.
(** [os.Getenv]: the value of the variable, empty when it is not set. *)
Definition Getenv (key : string) : M string :=
  fun w => (default "" (environ w !! key), w).

(** [os.Setenv] and [os.Unsetenv], as the surroundings of the handler may
    call them between invocations. *)
Definition Setenv (key value : string) (w : World) : World :=
  mkWorld (<[key := value]> (environ w)) (network w) (sent w) (output w).

Definition Unsetenv (key : string) (w : World) : World :=
  mkWorld (delete key (environ w)) (network w) (sent w) (output w).
End os.

Module http.
(** [http.Get]: one GET request without caller-supplied headers; the
    network answers with a response or an error. *)
Definition Get (url : string) : M (Response + error) :=
  fun w =>
    let req := mkRequest "GET" url [] in
    (network w (sent w) req,
     mkWorld (environ w) (network w) (S (sent w)) (output w ++ [EvRequest req])).
End http.

Module io.
(** [io.ReadAll]: everything the stream delivers, and its error if any. *)
Definition ReadAll (r : ReadCloser) : M (list byte * option error) :=
  mret (stream r, stream_err r).

Definition Close (r : ReadCloser) : M unit := emit EvBodyClose.
End io.

(** [fmt.Println] of an error. *)
Definition Println (err : error) : M unit :=
  emit (EvStdout (err +:+ String "010" "")).

Module slog.
Definition Info (msg : string) (attrs : list (string * string)) : M unit :=
  emit (EvSlogInfo msg attrs).
End slog.

(** ** The program *)

Record LLMArguments := mkLLMArguments {
  City : string;
  Latitude : float64;
  Longitude : float64
}.

(** The host side of [serverless.Context]: how the arguments of the tool
    call are decoded into the struct handed in. *)
Record Context := mkContext {
  decode : LLMArguments -> LLMArguments * option error
}.

Definition ReadLLMArguments (ctx : Context) (p : LLMArguments)
  : M (LLMArguments * option error) := mret (decode ctx p).

Definition WriteLLMResult (ctx : Context) (result : string) : M unit :=
  emit (EvWriteLLMResult result).

Definition apiURL : string :=
  "https://api.openweathermap.org/data/2.5/weather?lat=%f&lon=%f&appid=%s&units=metric".

Definition requestOpenWeatherMapAPI (lat lon : float64) : M string :=
  apiKey ← os.Getenv "OPENWEATHERMAP_API_KEY";
  let url := fmt.Sprintf apiURL lat lon apiKey in
  r ← http.Get url;
  match r with
  | inr err =>
      Println err;;
      mret "can not get the weather information at the moment"
  | inl resp =>
      (* defer resp.Body.Close() *)
      result ← (rd ← io.ReadAll (Body resp);
                 match rd with
                 | (_, Some err) =>
                     Println err;;
                     mret "can not get the weather information at the moment"
                 | (body, None) => mret (string_of_list_byte body)
                 end);
      io.Close (Body resp);;
      mret result
  end.

Definition Handler (ctx : Context) : M unit :=
  let p := mkLLMArguments "" (S754_zero false) (S754_zero false) in
  rd ← ReadLLMArguments ctx p;
  let p := fst rd in
  result ← requestOpenWeatherMapAPI (Latitude p) (Longitude p);
  WriteLLMResult ctx result;;
  slog.Info "get-weather" [("city", City p); ("result", result)].

Definition DataTags : list Z := [0x62].

(** ** The program over nilable pointers

    The same two functions once more, this time with what Go lets go
    wrong at run time: [http.Get] hands back a pointer and an error, the
    pointer may be nil whenever the error is not, following a nil pointer
    panics, and a panic unwinds the handler instead of letting it return.
    The host may also fail to take the result; [WriteLLMResult] then
    returns an error. *)

Module Nilable.

(** How a call ends: it returns, or it panics. *)
Inductive outcome (A : Type) :=
| Returned (a : A) (w : World)
| Panicked (reason : string) (w : World).

Arguments Returned {A} a w.
Arguments Panicked {A} reason w.

Definition M (A : Type) : Type := World -> outcome A.

#[global] Instance M_ret : MRet M := fun A a w => Returned a w.

#[global] Instance M_bind : MBind M :=
  fun A B k m w =>
    match m w with
    | Returned a w' => k a w'
    | Panicked reason w' => Panicked reason w'
    end.

Definition panic {A} (reason : string) : M A :=
  fun w => Panicked reason w.

(** An operation that cannot panic. *)
Definition lift {A} (m : World -> A * World) : M A :=
  fun w => let '(a, w') := m w in Returned a w'.

Definition panicked {A} (o : outcome A) : bool :=
  match o with
  | Returned _ _ => false
  | Panicked _ _ => true
  end.

(** What surrounds an invocation besides the world: the host context,
    the error the host returns when handed a result, and the pointer that
    comes with a failed GET (nil, or a response already closed). *)
Record Runtime := mkRuntime {
  context : Context;
  write_error : string -> option error;
  stale_response : string -> option Response
}.

(** [http.Get] with both of its results: when the error is nil the
    response is not. *)
Definition Get (rt : Runtime) (url : string)
  : M (option Response * option error) :=
  r ← lift (http.Get url);
  mret (match r with
        | inl resp => (Some resp, None)
        | inr err => (stale_response rt err, Some err)
        end).

(** [resp.Body], through the pointer. *)
Definition Body_of (resp : option Response) : M ReadCloser :=
  match resp with
  | Some r => mret (Body r)
  | None => panic "invalid memory address or nil pointer dereference"
  end.

Definition WriteLLMResult (rt : Runtime) (result : string)
  : M (option error) :=
  lift (WriteLLMResult (context rt) result);;
  mret (write_error rt result).

Definition requestOpenWeatherMapAPI (rt : Runtime) (lat lon : float64)
  : M string :=
  apiKey ← lift (os.Getenv "OPENWEATHERMAP_API_KEY");
  let url := fmt.Sprintf apiURL lat lon apiKey in
  r ← Get rt url;
  let resp := fst r in
  match snd r with
  | Some err =>
      lift (Println err);;
      mret "can not get the weather information at the moment"
  | None =>
      (* defer resp.Body.Close() *)
      closer ← Body_of resp;
      result ← (body ← Body_of resp;
                 rd ← lift (io.ReadAll body);
                 match rd with
                 | (_, Some err) =>
                     lift (Println err);;
                     mret "can not get the weather information at the moment"
                 | (body, None) => mret (string_of_list_byte body)
                 end);
      lift (io.Close closer);;
      mret result
  end.

Definition Handler (rt : Runtime) : M unit :=
  let p := mkLLMArguments "" (S754_zero false) (S754_zero false) in
  rd ← lift (ReadLLMArguments (context rt) p);
  let p := fst rd in
  result ← requestOpenWeatherMapAPI rt (Latitude p) (Longitude p);
  WriteLLMResult rt result;;
  lift (slog.Info "get-weather" [("city", City p); ("result", result)]).

End Nilable.

(** ** Observations *)

Definition sign_of (x : float64) : string :=
  if is_negative x then "-" else "".

(** [ip.fp] is the magnitude of [x] in fixed-point notation with six
    digits after the point: digits only, a non-empty integer part, and a
    value within half a millionth of the magnitude. *)
Definition six_decimals (x : float64) (ip fp : string) : Prop :=
  fmt.all_digits ip = true /\ ip <> "" /\
  fmt.all_digits fp = true /\ String.length fp = 6%nat /\
  2 * Z.abs ((fmt.dec_value ip * 10 ^ 6 + fmt.dec_value fp)
               * snd (fmt.magnitude x)
             - fst (fmt.magnitude x) * 10 ^ 6)
  <= snd (fmt.magnitude x).

(** The URL of the template with its three holes filled. *)
Definition template_url (lat lon key : string) : string :=
  "https://api.openweathermap.org/data/2.5/weather?lat=" +:+ lat
    +:+ "&lon=" +:+ lon +:+ "&appid=" +:+ key +:+ "&units=metric".

(** The API key [os.Getenv] finds in a world. *)
Definition key_of (w : World) : string :=
  default "" (environ w !! "OPENWEATHERMAP_API_KEY").

Definition request_of (lat lon : float64) (w : World) : Request :=
  mkRequest "GET" (template_url (fmt.fmt_f lat) (fmt.fmt_f lon) (key_of w)) [].

Definition answer_of (lat lon : float64) (w : World) : Response + error :=
  network w (sent w) (request_of lat lon w).

(** Result text and later events that follow from an answer. *)
Definition after_answer (a : Response + error) : string * list event :=
  match a with
  | inr err =>
      ("can not get the weather information at the moment",
       [EvStdout (err +:+ String "010" "")])
  | inl resp =>
      match stream_err (Body resp) with
      | Some err =>
          ("can not get the weather information at the moment",
           [EvStdout (err +:+ String "010" ""); EvBodyClose])
      | None => (string_of_list_byte (stream (Body resp)), [EvBodyClose])
      end
  end.

(** The arguments the host hands to an invocation. *)
Definition args_of (ctx : Context) : LLMArguments :=
  fst (decode ctx (mkLLMArguments "" (S754_zero false) (S754_zero false))).

Definition request_for (ctx : Context) (w : World) : Request :=
  request_of (Latitude (args_of ctx)) (Longitude (args_of ctx)) w.

Definition answer_for (ctx : Context) (w : World) : Response + error :=
  answer_of (Latitude (args_of ctx)) (Longitude (args_of ctx)) w.

(** Everything one invocation adds to the output. *)
Definition events_of (ctx : Context) (w : World) : list event :=
  EvRequest (request_for ctx w)
    :: snd (after_answer (answer_for ctx w))
    ++ [EvWriteLLMResult (fst (after_answer (answer_for ctx w)));
        EvSlogInfo "get-weather"
          [("city", City (args_of ctx));
           ("result", fst (after_answer (answer_for ctx w)))]].

(** Projections of the output. *)
Definition requests (tr : list event) : list Request :=
  omap (fun e => match e with EvRequest r => Some r | _ => None end) tr.

Definition written (tr : list event) : list string :=
  omap (fun e => match e with EvWriteLLMResult s => Some s | _ => None end) tr.

Definition printed (tr : list event) : list string :=
  omap (fun e => match e with EvStdout s => Some s | _ => None end) tr.

Definition logged (tr : list event) : list (string * list (string * string)) :=
  omap (fun e => match e with EvSlogInfo m a => Some (m, a) | _ => None end) tr.

(** ** Scenario data *)

(** London, as the binary64 values nearest to 51.5074 and -0.1278. *)
Definition London : LLMArguments :=
  mkLLMArguments "London"
    (S754_finite false 7249022107713221 (-47))
    (S754_finite true 4604480259023595 (-55)).

(** A host whose decoding yields the given arguments. *)
Definition host (p : LLMArguments) : Context :=
  mkContext (fun _ => (p, None)).

(** A network that gives every request the same answer. *)
Definition stub (a : Response + error) : nat -> Request -> Response + error :=
  fun _ _ => a.

(** The bytes of [{"weather":"clear"}]. *)
Definition clear_body : list byte :=
  [x7b; x22; x77; x65; x61; x74; x68; x65; x72; x22; x3a;
   x22; x63; x6c; x65; x61; x72; x22; x7d].

Definition with_key (key : string) : gmap string string :=
  {[ "OPENWEATHERMAP_API_KEY" := key ]}.

Definition fresh (env : gmap string string)
    (net : nat -> Request -> Response + error) : World :=
  mkWorld env net 0 [].

(** The same coordinates under another city name. *)
Definition Londres : LLMArguments :=
  mkLLMArguments "Londres" (Latitude London) (Longitude London).

(** A provider that is not reachable. *)
Definition unreachable : nat -> Request -> Response + error :=
  stub (inr "dial tcp: connection refused").

(** A provider that turns the request down for its key. *)
Definition rejecting : nat -> Request -> Response + error :=
  stub (inl (mkResponse 401
               (mkReadCloser (list_byte_of_string "Invalid API key") None))).

(** A provider that answers [{"weather":"clear"}]. *)
Definition clear_sky : nat -> Request -> Response + error :=
  stub (inl (mkResponse 200 (mkReadCloser clear_body None))).

(** The world [w] on a network that answers the next request as the
    network of [w] does and every later request as [net'] does. *)
Definition with_later_answers (net' : nat -> Request -> Response + error)
    (w : World) : World :=
  mkWorld (environ w)
    (fun n req => if Nat.eqb n (sent w) then network w n req else net' n req)
    (sent w) (output w).

(** How often a response body is closed in an output. *)
Definition closes (tr : list event) : nat :=
  length (omap (fun e => match e with EvBodyClose => Some tt | _ => None end) tr).

(** The world [w] on another network. *)
Definition on_network (net : nat -> Request -> Response + error)
    (w : World) : World :=
  mkWorld (environ w) net (sent w) (output w).

(** The world a later invocation starts from when only the passing of one
    request is remembered of the earlier one. *)
Definition one_request_later (w : World) : World :=
  mkWorld (environ w) (network w) (S (sent w)) [].

(** A host whose decoding fails and leaves the struct as handed in. *)
Definition failing_host (err : error) : Context :=
  mkContext (fun p => (p, Some err)).

(** A provider whose body breaks off after some bytes. *)
Definition truncated : nat -> Request -> Response + error :=
  stub (inl (mkResponse 200 (mkReadCloser clear_body (Some "unexpected EOF")))).

(** The characters [%f] prints: digits, point, signs and the letters of
    [NaN] and [Inf]. *)
Definition coordinate_char (c : ascii) : bool :=
  fmt.is_digit c
  || existsb (Ascii.eqb c) ["."; "-"; "+"; "N"; "a"; "I"; "n"; "f"]%char.

Fixpoint all_chars (P : ascii -> bool) (s : string) : bool :=
  match s with
  | EmptyString => true
  | String c r => P c && all_chars P r
  end.

(** An answer with the status code of its response, if any, replaced. *)
Definition set_status (code : Z) (a : Response + error) : Response + error :=
  match a with
  | inl resp => inl (mkResponse code (Body resp))
  | inr err => inr err
  end.

(** A host that cannot take the result, on a client that returns a nil
    response with every error. *)
Definition failing_writes (p : LLMArguments) : Nilable.Runtime :=
  Nilable.mkRuntime (host p) (fun _ => Some "write: broken pipe") (fun _ => None).

(** ** Decimal printing *)

Section Digits.
Import fmt.

Lemma digit_spec d :
  0 <= d < 10 -> is_digit (digit d) = true /\ digit_val (digit d) = d.
Proof.
  intros Hd. unfold is_digit, digit_val, digit.
  rewrite N_ascii_embedding by lia.
  split; [apply andb_true_iff; split; apply N.leb_le; lia | lia].
Qed.

Lemma mod10_range n : 0 <= n mod 10 < 10.
Proof. apply Z.mod_pos_bound; lia. Qed.

Lemma length_digits_acc k : forall n acc,
  String.length (digits_acc k n acc) = (k + String.length acc)%nat.
Proof.
  induction k as [|k IH]; intros n acc; simpl; [reflexivity|].
  rewrite IH. simpl. lia.
Qed.

Lemma all_digits_digits_acc k : forall n acc,
  all_digits acc = true -> all_digits (digits_acc k n acc) = true.
Proof.
  induction k as [|k IH]; intros n acc Hacc; simpl; [exact Hacc|].
  apply IH. simpl. rewrite Hacc.
  destruct (digit_spec (n mod 10) (mod10_range n)) as [-> _]. reflexivity.
Qed.

Lemma dec_value_cons d acc :
  0 <= d < 10 ->
  dec_value (String (digit d) acc)
  = d * 10 ^ Z.of_nat (String.length acc) + dec_value acc.
Proof.
  intros Hd. simpl. destruct (digit_spec d Hd) as [_ ->]. reflexivity.
Qed.

Lemma dec_value_digits_acc k : forall n acc,
  dec_value (digits_acc k n acc)
  = (n mod 10 ^ Z.of_nat k) * 10 ^ Z.of_nat (String.length acc)
    + dec_value acc.
Proof.
  induction k as [|k IH]; intros n acc.
  - simpl. rewrite Z.mod_1_r. lia.
  - cbn [digits_acc]. rewrite IH, dec_value_cons by apply mod10_range.
    cbn [String.length].
    replace (Z.of_nat (S (String.length acc)))
      with (1 + Z.of_nat (String.length acc)) by lia.
    replace (Z.of_nat (S k)) with (1 + Z.of_nat k) by lia.
    rewrite !Z.pow_add_r, Z.pow_1_r by lia.
    rewrite (Z.rem_mul_r n 10 (10 ^ Z.of_nat k)) by lia.
    ring.
Qed.

Lemma all_digits_itoa_fuel fuel : forall n acc,
  all_digits acc = true -> all_digits (itoa_fuel fuel n acc) = true.
Proof.
  induction fuel as [|fuel IH]; intros n acc Hacc; simpl; [exact Hacc|].
  assert (Hd : all_digits (String (digit (n mod 10)) acc) = true).
  { simpl. rewrite Hacc.
    destruct (digit_spec (n mod 10) (mod10_range n)) as [-> _]. reflexivity. }
  destruct (n / 10 =? 0); [exact Hd | apply IH, Hd].
Qed.

Lemma itoa_fuel_nonempty fuel : forall n acc,
  itoa_fuel (S fuel) n acc <> "".
Proof.
  induction fuel as [|fuel IH]; intros n acc.
  - simpl. destruct (n / 10 =? 0); discriminate.
  - change (itoa_fuel (S (S fuel)) n acc)
      with (if n / 10 =? 0 then String (digit (n mod 10)) acc
            else itoa_fuel (S fuel) (n / 10) (String (digit (n mod 10)) acc)).
    destruct (n / 10 =? 0); [discriminate | apply IH].
Qed.

Lemma dec_value_itoa_fuel fuel : forall n acc,
  0 <= n < 10 ^ Z.of_nat fuel ->
  dec_value (itoa_fuel fuel n acc)
  = n * 10 ^ Z.of_nat (String.length acc) + dec_value acc.
Proof.
  induction fuel as [|fuel IH]; intros n acc Hn.
  - simpl in *. replace n with 0 by lia. lia.
  - cbn [itoa_fuel].
    replace (Z.of_nat (S fuel)) with (1 + Z.of_nat fuel) in Hn by lia.
    rewrite Z.pow_add_r, Z.pow_1_r in Hn by lia.
    pose proof (Z.div_mod n 10 ltac:(lia)) as Hdm.
    pose proof (mod10_range n) as Hr.
    destruct (Z.eqb_spec (n / 10) 0) as [Hq|Hq].
    + rewrite dec_value_cons by exact Hr.
      replace (n mod 10) with n by lia. reflexivity.
    + rewrite IH by (split; [apply Z.div_pos; lia
                            | apply Z.div_lt_upper_bound; lia]).
      rewrite dec_value_cons by exact Hr. cbn [String.length].
      replace (Z.of_nat (S (String.length acc)))
        with (1 + Z.of_nat (String.length acc)) by lia.
      rewrite Z.pow_add_r, Z.pow_1_r by lia.
      set (P := 10 ^ Z.of_nat (String.length acc)).
      rewrite Hdm at 3. ring.
Qed.

Lemma itoa_fuel_enough n :
  0 <= n -> n < 10 ^ Z.of_nat (S (Z.to_nat (Z.log2 n))).
Proof.
  intros Hn. destruct (Z.eq_dec n 0) as [->|Hz]; [reflexivity|].
  pose proof (Z.log2_nonneg n) as Hl.
  destruct (Z.log2_spec n ltac:(lia)) as [_ Hlt].
  replace (Z.of_nat (S (Z.to_nat (Z.log2 n)))) with (Z.succ (Z.log2 n)) by lia.
  eapply Z.lt_le_trans; [exact Hlt|].
  apply Z.pow_le_mono_l. lia.
Qed.

Lemma itoa_spec n :
  0 <= n ->
  all_digits (itoa n) = true /\ itoa n <> "" /\ dec_value (itoa n) = n.
Proof.
  intros Hn. unfold itoa. split; [|split].
  - apply all_digits_itoa_fuel. reflexivity.
  - apply itoa_fuel_nonempty.
  - rewrite dec_value_itoa_fuel by (split; [lia | apply itoa_fuel_enough, Hn]).
    simpl. lia.
Qed.

Lemma round_half_even_near num den :
  0 <= num -> 0 < den ->
  0 <= round_half_even num den
  /\ 2 * Z.abs (round_half_even num den * den - num) <= den.
Proof.
  intros Hnum Hden. unfold round_half_even.
  pose proof (Z.div_mod num den ltac:(lia)) as Hdm.
  pose proof (Z.mod_pos_bound num den Hden) as Hr.
  pose proof (Z.div_pos num den Hnum Hden) as Hq.
  set (q := num / den) in *. set (r := num mod den) in *.
  destruct (Z.compare_spec (2 * r) den); [destruct (Z.even q)| |];
    (split; [lia | nia]).
Qed.

Lemma magnitude_range x :
  0 <= fst (magnitude x) /\ 0 < snd (magnitude x).
Proof.
  destruct x as [s|s| |s m e]; cbn [magnitude fst snd]; lia.
Qed.
End Digits.

Lemma fixed6_six_decimals x :
  six_decimals x (fmt.itoa (fmt.millionths x / 10 ^ 6))
                 (fmt.digits_acc 6 (fmt.millionths x mod 10 ^ 6) "").
Proof.
  destruct (magnitude_range x) as [Hnum Hden].
  unfold six_decimals, fmt.millionths.
  destruct (fmt.magnitude x) as [num den] eqn:Hmag. cbn [fst snd] in *.
  destruct (round_half_even_near (num * 10 ^ 6) den ltac:(lia) Hden)
    as [Hq Hnear].
  set (q := fmt.round_half_even (num * 10 ^ 6) den) in *.
  destruct (itoa_spec (q / 10 ^ 6) ltac:(apply Z.div_pos; lia))
    as (Hd & Hne & Hv).
  repeat split; try assumption.
  - apply all_digits_digits_acc. reflexivity.
  - rewrite Hv, dec_value_digits_acc. cbn [String.length fmt.dec_value].
    change (10 ^ Z.of_nat 6) with (10 ^ 6). change (10 ^ Z.of_nat 0) with 1.
    rewrite Z.mod_mod by lia.
    pose proof (Z.div_mod q (10 ^ 6) ltac:(lia)) as Hdm.
    replace (q / 10 ^ 6 * 10 ^ 6 + (q mod 10 ^ 6 * 1 + 0)) with q by lia.
    exact Hnear.
Qed.

Lemma fmt_f_number x :
  is_number x = true ->
  exists ip fp,
    fmt.fmt_f x = sign_of x +:+ ip +:+ "." +:+ fp /\ six_decimals x ip fp.
Proof.
  intros Hx.
  exists (fmt.itoa (fmt.millionths x / 10 ^ 6)),
         (fmt.digits_acc 6 (fmt.millionths x mod 10 ^ 6) "").
  split; [|apply fixed6_six_decimals].
  destruct x as [s|s| |s m e]; try discriminate; reflexivity.
Qed.

Lemma Sprintf_apiURL lat lon key :
  fmt.Sprintf apiURL lat lon key
  = template_url (fmt.fmt_f lat) (fmt.fmt_f lon) key.
Proof. reflexivity. Qed.

Lemma requestOpenWeatherMapAPI_run lat lon w :
  requestOpenWeatherMapAPI lat lon w
  = (fst (after_answer (answer_of lat lon w)),
     mkWorld (environ w) (network w) (S (sent w))
       (output w ++ EvRequest (request_of lat lon w)
                 :: snd (after_answer (answer_of lat lon w)))).
Proof.
  unfold requestOpenWeatherMapAPI, answer_of, request_of, key_of, after_answer.
  unfold os.Getenv, http.Get, io.ReadAll, io.Close, Println, emit.
  unfold mbind, M_bind, mret, M_ret.
  cbn [environ network sent output fst snd].
  rewrite Sprintf_apiURL.
  destruct (network w (sent w) _) as [resp|err]; cbn [fst snd].
  - destruct (stream_err (Body resp)) as [err|]; cbn [fst snd environ network sent output];
      rewrite <- ?app_assoc; reflexivity.
  - cbn [fst snd environ network sent output].
    rewrite <- app_assoc. reflexivity.
Qed.

Lemma Handler_run ctx w :
  Handler ctx w
  = (tt, mkWorld (environ w) (network w) (S (sent w))
           (output w ++ events_of ctx w)).
Proof.
  unfold Handler, events_of, request_for, answer_for, args_of.
  unfold mbind at 1, M_bind at 1, ReadLLMArguments, mret, M_ret.
  unfold mbind at 1, M_bind at 1.
  rewrite requestOpenWeatherMapAPI_run.
  unfold mbind, M_bind, WriteLLMResult, slog.Info, emit.
  cbn [environ network sent output fst snd].
  rewrite <- !app_assoc. reflexivity.
Qed.

Lemma after_answer_requests a : requests (snd (after_answer a)) = [].
Proof.
  destruct a as [resp|err]; cbn; [destruct (stream_err (Body resp))|]; reflexivity.
Qed.

Lemma after_answer_written a : written (snd (after_answer a)) = [].
Proof.
  destruct a as [resp|err]; cbn; [destruct (stream_err (Body resp))|]; reflexivity.
Qed.

Lemma after_answer_logged a : logged (snd (after_answer a)) = [].
Proof.
  destruct a as [resp|err]; cbn; [destruct (stream_err (Body resp))|]; reflexivity.
Qed.

Lemma requests_events_of ctx w :
  requests (events_of ctx w) = [request_for ctx w].
Proof.
  unfold events_of, requests. cbn [omap list_omap]. rewrite omap_app.
  fold (requests (snd (after_answer (answer_for ctx w)))).
  rewrite after_answer_requests. reflexivity.
Qed.

Lemma written_events_of ctx w :
  written (events_of ctx w) = [fst (after_answer (answer_for ctx w))].
Proof.
  unfold events_of, written. cbn [omap list_omap]. rewrite omap_app.
  fold (written (snd (after_answer (answer_for ctx w)))).
  rewrite after_answer_written. reflexivity.
Qed.

Lemma logged_events_of ctx w :
  logged (events_of ctx w)
  = [("get-weather",
      [("city", City (args_of ctx));
       ("result", fst (after_answer (answer_for ctx w)))])].
Proof.
  unfold events_of, logged. cbn [omap list_omap]. rewrite omap_app.
  fold (logged (snd (after_answer (answer_for ctx w)))).
  rewrite after_answer_logged. reflexivity.
Qed.


Example fmt_f_london :
  Latitude London = Prim2SF 0x1.9c0f27bb2fec5p+5%float
  /\ Longitude London = Prim2SF (-0x1.05bc01a36e2ebp-3)%float
  /\ fmt.fmt_f (Latitude London) = "51.507400"
  /\ fmt.fmt_f (Longitude London) = "-0.127800".
Proof. repeat split; vm_compute; reflexivity. Qed.

(** ** Properties of the handler *)

Lemma output_Handler ctx w :
  output (snd (Handler ctx w)) = output w ++ events_of ctx w.
Proof. rewrite Handler_run. reflexivity. Qed.

Lemma written_Handler ctx w :
  written (output (snd (Handler ctx w)))
  = written (output w) ++ [fst (after_answer (answer_for ctx w))].
Proof.
  rewrite output_Handler. unfold written at 1. rewrite omap_app.
  fold (written (output w)) (written (events_of ctx w)).
  rewrite written_events_of. reflexivity.
Qed.

Lemma requests_Handler ctx w :
  requests (output (snd (Handler ctx w)))
  = requests (output w) ++ [request_for ctx w].
Proof.
  rewrite output_Handler. unfold requests at 1. rewrite omap_app.
  fold (requests (output w)) (requests (events_of ctx w)).
  rewrite requests_events_of. reflexivity.
Qed.

Lemma logged_Handler ctx w :
  logged (output (snd (Handler ctx w)))
  = logged (output w)
    ++ [("get-weather",
         [("city", City (args_of ctx));
          ("result", fst (after_answer (answer_for ctx w)))])].
Proof.
  rewrite output_Handler. unfold logged at 1. rewrite omap_app.
  fold (logged (output w)) (logged (events_of ctx w)).
  rewrite logged_events_of. reflexivity.
Qed.

Lemma result_requestOpenWeatherMapAPI lat lon w :
  fst (requestOpenWeatherMapAPI lat lon w)
  = fst (after_answer (answer_of lat lon w)).
Proof. rewrite requestOpenWeatherMapAPI_run. reflexivity. Qed.

(** C1: when the GET completes and the body is read without error, the
    text the handler hands back is the response body, byte for byte, for
    every status code. *)
Theorem C1_body_returned_verbatim ctx w code data :
  answer_for ctx w = inl (mkResponse code (mkReadCloser data None)) ->
  exists result,
    fst (requestOpenWeatherMapAPI
           (Latitude (args_of ctx)) (Longitude (args_of ctx)) w) = result
    /\ written (output (snd (Handler ctx w))) = written (output w) ++ [result]
    /\ list_byte_of_string result = data.
Proof.
  intros Ha. exists (string_of_list_byte data).
  rewrite result_requestOpenWeatherMapAPI, written_Handler.
  unfold answer_for in Ha. unfold answer_for. rewrite Ha. cbn.
  repeat split. apply list_byte_of_string_of_list_byte.
Qed.

Lemma C1_witness :
  answer_for (host London)
    (fresh (with_key "k3y") (stub (inl (mkResponse 200 (mkReadCloser clear_body None)))))
  = inl (mkResponse 200 (mkReadCloser clear_body None))
  /\ exists result,
    fst (requestOpenWeatherMapAPI
           (Latitude (args_of (host London))) (Longitude (args_of (host London)))
           (fresh (with_key "k3y")
              (stub (inl (mkResponse 200 (mkReadCloser clear_body None))))))
    = result
    /\ written (output (snd (Handler (host London)
         (fresh (with_key "k3y")
            (stub (inl (mkResponse 200 (mkReadCloser clear_body None))))))))
       = written (output (fresh (with_key "k3y")
            (stub (inl (mkResponse 200 (mkReadCloser clear_body None))))))
         ++ [result]
    /\ list_byte_of_string result = clear_body.
Proof.
  split; [reflexivity|].
  apply (C1_body_returned_verbatim (host London)
           (fresh (with_key "k3y")
              (stub (inl (mkResponse 200 (mkReadCloser clear_body None)))))
           200 clear_body).
  reflexivity.
Defined.

(** C2: when the GET fails or the body read fails the handler hands back
    exactly the fixed fallback string; in the one remaining case, a
    response whose body was read in full, it hands back the body, so no
    other condition yields the fallback. *)
Theorem C2_fallback_on_transport_errors ctx w :
  fst (requestOpenWeatherMapAPI
         (Latitude (args_of ctx)) (Longitude (args_of ctx)) w)
  = match answer_for ctx w with
    | inr _ => "can not get the weather information at the moment"
    | inl resp =>
        match stream_err (Body resp) with
        | Some _ => "can not get the weather information at the moment"
        | None => string_of_list_byte (stream (Body resp))
        end
    end
  /\ written (output (snd (Handler ctx w)))
     = written (output w)
       ++ [fst (requestOpenWeatherMapAPI
                  (Latitude (args_of ctx)) (Longitude (args_of ctx)) w)].
Proof.
  rewrite result_requestOpenWeatherMapAPI, written_Handler.
  fold (answer_for ctx w). split; [|reflexivity].
  destruct (answer_for ctx w) as [resp|err]; cbn; [|reflexivity].
  destruct (stream_err (Body resp)); reflexivity.
Qed.

Lemma key_of_Setenv key w :
  key_of (os.Setenv "OPENWEATHERMAP_API_KEY" key w) = key.
Proof.
  unfold key_of, os.Setenv. cbn [environ].
  rewrite lookup_insert_eq. reflexivity.
Qed.

Lemma key_of_Unsetenv w :
  key_of (os.Unsetenv "OPENWEATHERMAP_API_KEY" w) = "".
Proof.
  unfold key_of, os.Unsetenv. cbn [environ].
  rewrite lookup_delete_eq. reflexivity.
Qed.

(** C3: for every latitude, longitude and API key, the one request of an
    invocation is a GET, without headers, of the template URL holding the
    two coordinates as [%f] prints them, the key and [units=metric]. *)
Theorem C3_request_built_from_template ctx key w :
  requests (output (snd (Handler ctx
              (os.Setenv "OPENWEATHERMAP_API_KEY" key w))))
  = requests (output w)
    ++ [mkRequest "GET"
          ("https://api.openweathermap.org/data/2.5/weather?lat="
             +:+ fmt.fmt_f (Latitude (args_of ctx))
             +:+ "&lon=" +:+ fmt.fmt_f (Longitude (args_of ctx))
             +:+ "&appid=" +:+ key +:+ "&units=metric")
          []].
Proof.
  rewrite requests_Handler. unfold request_for, request_of.
  rewrite key_of_Setenv. reflexivity.
Qed.


(** C7: an invocation sends exactly one request, on every path, and what
    the network would answer to any further request has no influence on
    the result. *)
Theorem C7_exactly_one_request ctx w net' :
  sent (snd (Handler ctx w)) = S (sent w)
  /\ requests (output (snd (Handler ctx w)))
     = requests (output w) ++ [request_for ctx w]
  /\ written (output (snd (Handler ctx (with_later_answers net' w))))
     = written (output (snd (Handler ctx w))).
Proof.
  split; [rewrite Handler_run; reflexivity|].
  split; [apply requests_Handler|].
  rewrite !written_Handler.
  unfold answer_for, answer_of, with_later_answers. cbn [network sent output].
  rewrite Nat.eqb_refl. reflexivity.
Qed.

(** C8: the key is looked up in the environment on each invocation: after
    the variable is set to another value, or unset, between invocations,
    the next request carries the value of that moment, and the handler
    itself leaves the environment as it found it. *)
Theorem C8_key_read_at_call_time ctx key w :
  let w1 := snd (Handler ctx w) in
  let w2 := snd (Handler ctx (os.Setenv "OPENWEATHERMAP_API_KEY" key w1)) in
  let w3 := snd (Handler ctx (os.Unsetenv "OPENWEATHERMAP_API_KEY" w2)) in
  let url := template_url (fmt.fmt_f (Latitude (args_of ctx)))
                          (fmt.fmt_f (Longitude (args_of ctx))) in
  environ w1 = environ w
  /\ requests (output w3)
     = requests (output w)
       ++ [mkRequest "GET" (url (key_of w)) [];
           mkRequest "GET" (url key) [];
           mkRequest "GET" (url "") []].
Proof.
  cbn zeta. split; [rewrite Handler_run; reflexivity|].
  rewrite requests_Handler.
  change (output (os.Unsetenv "OPENWEATHERMAP_API_KEY" ?x)) with (output x).
  rewrite requests_Handler.
  change (output (os.Setenv "OPENWEATHERMAP_API_KEY" key ?x)) with (output x).
  rewrite requests_Handler.
  unfold request_for, request_of.
  rewrite key_of_Setenv, key_of_Unsetenv, <- !app_assoc. reflexivity.
Qed.

(** C9: two invocations whose arguments agree on latitude and longitude,
    in the same world, send the same request and hand back the same text,
    whatever their city fields are. *)
Theorem C9_city_is_advisory ctx1 ctx2 w :
  Latitude (args_of ctx1) = Latitude (args_of ctx2) ->
  Longitude (args_of ctx1) = Longitude (args_of ctx2) ->
  requests (output (snd (Handler ctx1 w)))
  = requests (output (snd (Handler ctx2 w)))
  /\ written (output (snd (Handler ctx1 w)))
     = written (output (snd (Handler ctx2 w))).
Proof.
  intros Hlat Hlon. rewrite !requests_Handler, !written_Handler.
  unfold request_for, answer_for. rewrite Hlat, Hlon. split; reflexivity.
Qed.

Lemma C9_witness :
  Latitude (args_of (host London)) = Latitude (args_of (host Londres))
  /\ Longitude (args_of (host London)) = Longitude (args_of (host Londres))
  /\ requests (output (snd (Handler (host London)
                              (fresh (with_key "k3y") clear_sky))))
     = requests (output (snd (Handler (host Londres)
                                (fresh (with_key "k3y") clear_sky))))
  /\ written (output (snd (Handler (host London)
                             (fresh (with_key "k3y") clear_sky))))
     = written (output (snd (Handler (host Londres)
                               (fresh (with_key "k3y") clear_sky)))).
Proof.
  split; [reflexivity|]. split; [reflexivity|].
  apply (C9_city_is_advisory (host London) (host Londres)
           (fresh (with_key "k3y") clear_sky)); reflexivity.
Defined.

Lemma printed_Handler ctx w :
  printed (output (snd (Handler ctx w)))
  = printed (output w) ++ printed (snd (after_answer (answer_for ctx w))).
Proof.
  rewrite output_Handler. unfold printed at 1. rewrite omap_app.
  fold (printed (output w)). f_equal.
  unfold events_of. cbn [omap list_omap]. rewrite omap_app.
  cbn [omap list_omap]. rewrite app_nil_r. reflexivity.
Qed.

(** C4 (the log line, on both paths): the structured log line with the city and the result
    is emitted on every invocation, on the failure paths too, where its
    result is the fallback string; the failure paths print the error in
    addition, and the success path prints nothing. *)
Theorem C4_log_line_on_every_path ctx w :
  exists result,
    written (output (snd (Handler ctx w))) = written (output w) ++ [result]
    /\ logged (output (snd (Handler ctx w)))
       = logged (output w)
         ++ [("get-weather",
              [("city", City (args_of ctx)); ("result", result)])]
    /\ printed (output (snd (Handler ctx w)))
       = printed (output w)
         ++ match answer_for ctx w with
            | inr err => [err +:+ String "010" ""]
            | inl resp =>
                match stream_err (Body resp) with
                | Some err => [err +:+ String "010" ""]
                | None => []
                end
            end.
Proof.
  exists (fst (after_answer (answer_for ctx w))).
  split; [apply written_Handler|]. split; [apply logged_Handler|].
  rewrite printed_Handler. f_equal.
  destruct (answer_for ctx w) as [resp|err]; cbn; [|reflexivity].
  destruct (stream_err (Body resp)); reflexivity.
Qed.

(** C4 with the log line confined to the success path does not hold:
    with the provider unreachable the invocation is on the failure path
    and still emits the structured log line. *)
Lemma C4_counterexample :
  ~ (forall ctx w err,
       answer_for ctx w = inr err ->
       logged (output (snd (Handler ctx w))) = logged (output w)).
Proof.
  intros H.
  specialize (H (host London) (fresh (with_key "k3y") unreachable)
                "dial tcp: connection refused" eq_refl).
  rewrite logged_Handler in H. discriminate H.
Qed.

(** C5 (a missing key): with the variable missing the request is still sent,
    with an empty [appid], and the invocation hands back what that call
    yields: the body as received when the GET and the read succeed, the
    fallback string when one of them fails. *)
Theorem C5_missing_key_sends_empty_appid ctx w :
  environ w !! "OPENWEATHERMAP_API_KEY" = None ->
  requests (output (snd (Handler ctx w)))
  = requests (output w)
    ++ [mkRequest "GET"
          ("https://api.openweathermap.org/data/2.5/weather?lat="
             +:+ fmt.fmt_f (Latitude (args_of ctx))
             +:+ "&lon=" +:+ fmt.fmt_f (Longitude (args_of ctx))
             +:+ "&appid=&units=metric")
          []]
  /\ written (output (snd (Handler ctx w)))
     = written (output w)
       ++ [match answer_for ctx w with
           | inr _ => "can not get the weather information at the moment"
           | inl resp =>
               match stream_err (Body resp) with
               | Some _ => "can not get the weather information at the moment"
               | None => string_of_list_byte (stream (Body resp))
               end
           end].
Proof.
  intros Hkey. rewrite requests_Handler, written_Handler. split.
  - unfold request_for, request_of, key_of. rewrite Hkey. reflexivity.
  - f_equal. destruct (answer_for ctx w) as [resp|err]; cbn; [|reflexivity].
    destruct (stream_err (Body resp)); reflexivity.
Qed.

Lemma C5_witness :
  environ (fresh ∅ rejecting) !! "OPENWEATHERMAP_API_KEY" = None
  /\ requests (output (snd (Handler (host London) (fresh ∅ rejecting))))
     = [mkRequest "GET"
          "https://api.openweathermap.org/data/2.5/weather?lat=51.507400&lon=-0.127800&appid=&units=metric"
          []]
  /\ written (output (snd (Handler (host London) (fresh ∅ rejecting))))
     = ["Invalid API key"].
Proof.
  split; [reflexivity|].
  exact (C5_missing_key_sends_empty_appid (host London) (fresh ∅ rejecting)
           eq_refl).
Defined.

(** C5 with the fallback as the outcome of a missing key does not hold:
    with the variable missing and a provider that answers 401 with an
    error text, the handler hands back that text, not the fallback. *)
Lemma C5_counterexample :
  ~ (forall ctx w,
       environ w !! "OPENWEATHERMAP_API_KEY" = None ->
       written (output (snd (Handler ctx w)))
       = written (output w)
         ++ ["can not get the weather information at the moment"]).
Proof.
  intros H.
  specialize (H (host London) (fresh ∅ rejecting) eq_refl).
  rewrite written_Handler in H. discriminate H.
Qed.

Lemma requests_requestOpenWeatherMapAPI lat lon w :
  requests (output (snd (requestOpenWeatherMapAPI lat lon w)))
  = requests (output w) ++ [request_of lat lon w].
Proof.
  rewrite requestOpenWeatherMapAPI_run. cbn [snd output].
  unfold requests at 1. rewrite omap_app. cbn [omap list_omap].
  fold (requests (output w))
       (requests (snd (after_answer (answer_of lat lon w)))).
  rewrite after_answer_requests. reflexivity.
Qed.

(** C10: latitude and longitude enter the URL through [%f]: for numbers,
    an optional minus sign, the digits of the integer part, a point and
    exactly six digits, the whole within half a millionth of the value,
    so that further fractional digits are rounded away. *)
Theorem C10_coordinates_with_six_decimals lat lon w :
  is_number lat = true ->
  is_number lon = true ->
  exists ilat flat ilon flon,
    six_decimals lat ilat flat
    /\ six_decimals lon ilon flon
    /\ requests (output (snd (requestOpenWeatherMapAPI lat lon w)))
       = requests (output w)
         ++ [mkRequest "GET"
               ("https://api.openweathermap.org/data/2.5/weather?lat="
                  +:+ (sign_of lat +:+ ilat +:+ "." +:+ flat)
                  +:+ "&lon=" +:+ (sign_of lon +:+ ilon +:+ "." +:+ flon)
                  +:+ "&appid=" +:+ key_of w +:+ "&units=metric")
               []].
Proof.
  intros Hlat Hlon.
  destruct (fmt_f_number lat Hlat) as (ilat & flat & Elat & Slat).
  destruct (fmt_f_number lon Hlon) as (ilon & flon & Elon & Slon).
  exists ilat, flat, ilon, flon. split; [exact Slat|]. split; [exact Slon|].
  rewrite requests_requestOpenWeatherMapAPI. unfold request_of.
  rewrite Elat, Elon. reflexivity.
Qed.

Lemma C10_witness :
  is_number (Latitude London) = true
  /\ is_number (Longitude London) = true
  /\ exists ilat flat ilon flon,
       six_decimals (Latitude London) ilat flat
       /\ six_decimals (Longitude London) ilon flon
       /\ requests (output (snd (requestOpenWeatherMapAPI
                                   (Latitude London) (Longitude London)
                                   (fresh (with_key "k3y") clear_sky))))
          = requests (output (fresh (with_key "k3y") clear_sky))
            ++ [mkRequest "GET"
                  ("https://api.openweathermap.org/data/2.5/weather?lat="
                     +:+ (sign_of (Latitude London) +:+ ilat +:+ "." +:+ flat)
                     +:+ "&lon="
                     +:+ (sign_of (Longitude London) +:+ ilon +:+ "." +:+ flon)
                     +:+ "&appid=" +:+ key_of (fresh (with_key "k3y") clear_sky)
                     +:+ "&units=metric")
                  []].
Proof.
  split; [reflexivity|]. split; [reflexivity|].
  apply (C10_coordinates_with_six_decimals
           (Latitude London) (Longitude London)
           (fresh (with_key "k3y") clear_sky)); reflexivity.
Defined.

(** The scenarios of the specification, run. *)

Example London_clear_sky :
  Handler (host London) (fresh (with_key "k3y") clear_sky)
  = (tt, mkWorld (with_key "k3y") clear_sky 1
           [EvRequest
              (mkRequest "GET"
                 "https://api.openweathermap.org/data/2.5/weather?lat=51.507400&lon=-0.127800&appid=k3y&units=metric"
                 []);
            EvBodyClose;
            EvWriteLLMResult (string_of_list_byte clear_body);
            EvSlogInfo "get-weather"
              [("city", "London");
               ("result", string_of_list_byte clear_body)]]).
Proof. vm_compute. reflexivity. Qed.

Example London_unreachable :
  output (snd (Handler (host London) (fresh (with_key "k3y") unreachable)))
  = [EvRequest
       (mkRequest "GET"
          "https://api.openweathermap.org/data/2.5/weather?lat=51.507400&lon=-0.127800&appid=k3y&units=metric"
          []);
     EvStdout ("dial tcp: connection refused" +:+ String "010" "");
     EvWriteLLMResult "can not get the weather information at the moment";
     EvSlogInfo "get-weather"
       [("city", "London");
        ("result", "can not get the weather information at the moment")]].
Proof. vm_compute. reflexivity. Qed.

(** More than six fractional digits are rounded, ties to even; the sign
    survives rounding to zero; NaN and the infinities print as words. *)
Example fmt_f_rounding :
  fmt.fmt_f (Prim2SF 0x1.86da57920d334p+5%float) = "48.856612"
  /\ fmt.fmt_f (Prim2SF 0x1p-7%float) = "0.007812"
  /\ fmt.fmt_f (Prim2SF 0x1.8p-6%float) = "0.023438"
  /\ fmt.fmt_f (Prim2SF (-0x1p-30)%float) = "-0.000000"
  /\ fmt.fmt_f (Prim2SF 0x1.e847ffffff294p+19%float) = "1000000.000000"
  /\ fmt.fmt_f (Prim2SF 0x1.d6f34547e6b61p+26%float) = "123456789.123456"
  /\ fmt.fmt_f (Prim2SF 0x1.0f0cf064dd592p+73%float)
     = "10000000000000000000000.000000"
  /\ fmt.fmt_f (Prim2SF 0x0.0000000000001p-1022%float) = "0.000000"
  /\ fmt.fmt_f S754_nan = "NaN"
  /\ fmt.fmt_f (S754_infinity false) = "+Inf".
Proof. repeat split; vm_compute; reflexivity. Qed.

(** ** Further properties of the handler *)

Lemma closes_app tr1 tr2 : closes (tr1 ++ tr2) = (closes tr1 + closes tr2)%nat.
Proof. unfold closes. rewrite omap_app, length_app. reflexivity. Qed.

(** X1: the deferred [Close] runs exactly once in every invocation that
    got a response, also when reading the body fails, and not at all
    when the GET itself failed. *)
Theorem body_closed_once_per_response ctx w :
  closes (output (snd (Handler ctx w)))
  = (closes (output w)
     + match answer_for ctx w with inl _ => 1 | inr _ => 0 end)%nat.
Proof.
  rewrite output_Handler, closes_app. f_equal.
  unfold events_of.
  change (EvRequest ?r :: ?l) with ([EvRequest r] ++ l).
  rewrite !closes_app.
  destruct (answer_for ctx w) as [resp|err]; cbn; [|reflexivity].
  destruct (stream_err (Body resp)); reflexivity.
Qed.

(** X2: when reading the body fails, the error is printed first, the
    deferred [Close] runs next, and only then the fallback string is
    handed to the host and logged; the bytes read so far go nowhere. *)
Theorem read_failure_trace ctx w resp err :
  answer_for ctx w = inl resp ->
  stream_err (Body resp) = Some err ->
  output (snd (Handler ctx w))
  = output w
    ++ [EvRequest (request_for ctx w);
        EvStdout (err +:+ String "010" "");
        EvBodyClose;
        EvWriteLLMResult "can not get the weather information at the moment";
        EvSlogInfo "get-weather"
          [("city", City (args_of ctx));
           ("result", "can not get the weather information at the moment")]].
Proof.
  intros Ha He. rewrite output_Handler. unfold events_of.
  rewrite Ha. cbn. rewrite He. reflexivity.
Qed.

Lemma read_failure_trace_witness :
  answer_for (host London) (fresh (with_key "k3y") truncated)
  = inl (mkResponse 200 (mkReadCloser clear_body (Some "unexpected EOF")))
  /\ stream_err (Body (mkResponse 200
                         (mkReadCloser clear_body (Some "unexpected EOF"))))
     = Some "unexpected EOF"
  /\ output (snd (Handler (host London) (fresh (with_key "k3y") truncated)))
     = [EvRequest (request_for (host London) (fresh (with_key "k3y") truncated));
        EvStdout ("unexpected EOF" +:+ String "010" "");
        EvBodyClose;
        EvWriteLLMResult "can not get the weather information at the moment";
        EvSlogInfo "get-weather"
          [("city", "London");
           ("result", "can not get the weather information at the moment")]].
Proof.
  split; [reflexivity|]. split; [reflexivity|].
  exact (read_failure_trace (host London) (fresh (with_key "k3y") truncated)
           (mkResponse 200 (mkReadCloser clear_body (Some "unexpected EOF")))
           "unexpected EOF" eq_refl eq_refl).
Defined.

(** X3: the error of [ReadLLMArguments] is not looked at: when decoding
    fails and leaves the struct at its zero value, the handler still sends
    its request, for latitude and longitude zero, and logs an empty city. *)
Theorem decode_failure_is_ignored ctx w err :
  decode ctx (mkLLMArguments "" (S754_zero false) (S754_zero false))
  = (mkLLMArguments "" (S754_zero false) (S754_zero false), Some err) ->
  exists result,
    requests (output (snd (Handler ctx w)))
    = requests (output w)
      ++ [mkRequest "GET"
            ("https://api.openweathermap.org/data/2.5/weather?lat=0.000000&lon=0.000000&appid="
               +:+ key_of w +:+ "&units=metric")
            []]
    /\ written (output (snd (Handler ctx w))) = written (output w) ++ [result]
    /\ logged (output (snd (Handler ctx w)))
       = logged (output w)
         ++ [("get-weather", [("city", ""); ("result", result)])].
Proof.
  intros Hd. exists (fst (after_answer (answer_for ctx w))).
  rewrite requests_Handler, written_Handler, logged_Handler.
  unfold request_for, request_of, args_of. rewrite Hd. cbn [fst].
  repeat split.
Qed.

Lemma decode_failure_is_ignored_witness :
  decode (failing_host "unexpected end of JSON input")
    (mkLLMArguments "" (S754_zero false) (S754_zero false))
  = (mkLLMArguments "" (S754_zero false) (S754_zero false),
     Some "unexpected end of JSON input")
  /\ exists result,
    requests (output (snd (Handler (failing_host "unexpected end of JSON input")
                             (fresh (with_key "k3y") clear_sky))))
    = requests (output (fresh (with_key "k3y") clear_sky))
      ++ [mkRequest "GET"
            ("https://api.openweathermap.org/data/2.5/weather?lat=0.000000&lon=0.000000&appid="
               +:+ key_of (fresh (with_key "k3y") clear_sky) +:+ "&units=metric")
            []]
    /\ written (output (snd (Handler (failing_host "unexpected end of JSON input")
                               (fresh (with_key "k3y") clear_sky))))
       = written (output (fresh (with_key "k3y") clear_sky)) ++ [result]
    /\ logged (output (snd (Handler (failing_host "unexpected end of JSON input")
                              (fresh (with_key "k3y") clear_sky))))
       = logged (output (fresh (with_key "k3y") clear_sky))
         ++ [("get-weather", [("city", ""); ("result", result)])].
Proof.
  split; [reflexivity|].
  exact (decode_failure_is_ignored
           (failing_host "unexpected end of JSON input")
           (fresh (with_key "k3y") clear_sky)
           "unexpected end of JSON input" eq_refl).
Defined.

(** X4: invocations do not influence each other: after any first
    invocation, whatever its arguments and outcome, a second one adds to
    the output exactly what it would produce in a world that only
    remembers that one request went by. *)
Theorem consecutive_invocations_independent ctx1 ctx2 w :
  output (snd (Handler ctx2 (snd (Handler ctx1 w))))
  = output (snd (Handler ctx1 w))
    ++ output (snd (Handler ctx2 (one_request_later w))).
Proof.
  rewrite (output_Handler ctx2 (snd (Handler ctx1 w))).
  rewrite (output_Handler ctx2 (one_request_later w)).
  rewrite Handler_run. reflexivity.
Qed.

Lemma all_chars_app P a b :
  all_chars P (a +:+ b) = all_chars P a && all_chars P b.
Proof.
  induction a as [|c a IH]; simpl; [reflexivity|].
  rewrite IH, andb_assoc. reflexivity.
Qed.

Lemma all_digits_coordinate s :
  fmt.all_digits s = true -> all_chars coordinate_char s = true.
Proof.
  induction s as [|c s IH]; cbn; [reflexivity|].
  intros [Hc Hs]%andb_true_iff. unfold coordinate_char at 1.
  rewrite Hc, (IH Hs). reflexivity.
Qed.

Lemma fixed6_coordinate neg q :
  all_chars coordinate_char (fmt.fixed6 neg q) = true.
Proof.
  unfold fmt.fixed6. rewrite !all_chars_app.
  rewrite (all_digits_coordinate (fmt.itoa _))
    by (apply all_digits_itoa_fuel; reflexivity).
  rewrite (all_digits_coordinate (fmt.digits_acc _ _ _))
    by (apply all_digits_digits_acc; reflexivity).
  destruct neg; reflexivity.
Qed.

Lemma fmt_f_coordinate x : all_chars coordinate_char (fmt.fmt_f x) = true.
Proof.
  destruct x as [s|s| |s m e]; cbn [fmt.fmt_f];
    try apply fixed6_coordinate; [destruct s|]; reflexivity.
Qed.

(** X5: whatever [float64] values come in, NaN and the infinities
    included, the texts put into the [lat] and [lon] holes of the URL hold
    nothing but digits, a point, a sign and the letters of [NaN] and
    [Inf]: the coordinates cannot add a query parameter or leave the
    query. *)
Theorem coordinates_cannot_inject lat lon w :
  exists a b,
    all_chars coordinate_char a = true
    /\ all_chars coordinate_char b = true
    /\ requests (output (snd (requestOpenWeatherMapAPI lat lon w)))
       = requests (output w)
         ++ [mkRequest "GET"
               ("https://api.openweathermap.org/data/2.5/weather?lat=" +:+ a
                  +:+ "&lon=" +:+ b
                  +:+ "&appid=" +:+ key_of w +:+ "&units=metric")
               []].
Proof.
  exists (fmt.fmt_f lat), (fmt.fmt_f lon).
  split; [apply fmt_f_coordinate|]. split; [apply fmt_f_coordinate|].
  apply requests_requestOpenWeatherMapAPI.
Qed.

Lemma string_of_list_byte_empty l : string_of_list_byte l = "" -> l = [].
Proof. destruct l; [reflexivity | discriminate]. Qed.

(** X6: the text handed back is empty exactly when a response arrived
    whose body was read in full and held no bytes; no failure path yields
    an empty text. *)
Theorem empty_result_iff_empty_body lat lon w :
  fst (requestOpenWeatherMapAPI lat lon w) = ""
  <-> exists resp,
        answer_of lat lon w = inl resp
        /\ stream_err (Body resp) = None
        /\ stream (Body resp) = [].
Proof.
  rewrite result_requestOpenWeatherMapAPI. split.
  - destruct (answer_of lat lon w) as [resp|err]; cbn; [|discriminate].
    destruct (stream_err (Body resp)) eqn:He; cbn; [discriminate|].
    intros H%string_of_list_byte_empty. exists resp. repeat split; assumption.
  - intros (resp & -> & He & Hs). cbn. rewrite He, Hs. reflexivity.
Qed.

(** X7: from what reaches the host and the log, a failed call cannot be
    told from a call, of any status code, whose body spells the fallback
    text: both hand back and log the same string. *)
Theorem failure_looks_like_fallback_body ctx w err code :
  let failed := on_network (stub (inr err)) w in
  let spelled :=
    on_network
      (stub (inl (mkResponse code
                    (mkReadCloser
                       (list_byte_of_string
                          "can not get the weather information at the moment")
                       None)))) w in
  written (output (snd (Handler ctx failed)))
  = written (output (snd (Handler ctx spelled)))
  /\ logged (output (snd (Handler ctx failed)))
     = logged (output (snd (Handler ctx spelled))).
Proof.
  cbn zeta. rewrite !written_Handler, !logged_Handler. split; reflexivity.
Qed.

Lemma logged_app tr1 tr2 : logged (tr1 ++ tr2) = logged tr1 ++ logged tr2.
Proof. apply omap_app. Qed.

Lemma written_app tr1 tr2 : written (tr1 ++ tr2) = written tr1 ++ written tr2.
Proof. apply omap_app. Qed.

(** X8: [requestOpenWeatherMapAPI] itself never writes to the host or to
    the structured log, on any path, and leaves the environment and the
    network as they were: handing the result on is left to its caller. *)
Theorem request_helper_is_silent lat lon w :
  written (output (snd (requestOpenWeatherMapAPI lat lon w)))
  = written (output w)
  /\ logged (output (snd (requestOpenWeatherMapAPI lat lon w)))
     = logged (output w)
  /\ environ (snd (requestOpenWeatherMapAPI lat lon w)) = environ w
  /\ network (snd (requestOpenWeatherMapAPI lat lon w)) = network w.
Proof.
  rewrite requestOpenWeatherMapAPI_run. cbn [snd output environ network].
  change (EvRequest ?r :: ?l) with ([EvRequest r] ++ l).
  rewrite !written_app, !logged_app.
  rewrite after_answer_written, after_answer_logged. cbn.
  rewrite !app_nil_r. repeat split.
Qed.

Lemma after_answer_set_status code a :
  after_answer (set_status code a) = after_answer a.
Proof. destruct a as [resp|err]; reflexivity. Qed.

(** X9: the status code of the response is never looked at: with every
    answer of the network given another status code, an invocation
    produces the same output, event for event, on every path. *)
Theorem status_code_never_inspected ctx w code :
  output (snd (Handler ctx
                 (on_network (fun n req => set_status code (network w n req)) w)))
  = output (snd (Handler ctx w)).
Proof.
  rewrite !output_Handler. unfold events_of, answer_for, answer_of, on_network.
  cbn [network sent output]. rewrite !after_answer_set_status. reflexivity.
Qed.

(** ** No panic *)

Lemma Nilable_requestOpenWeatherMapAPI_run rt lat lon w :
  Nilable.requestOpenWeatherMapAPI rt lat lon w
  = Nilable.Returned (fst (requestOpenWeatherMapAPI lat lon w))
                     (snd (requestOpenWeatherMapAPI lat lon w)).
Proof.
  unfold Nilable.requestOpenWeatherMapAPI, requestOpenWeatherMapAPI,
    Nilable.Get, Nilable.lift.
  unfold os.Getenv, http.Get, io.ReadAll, io.Close, Println, emit.
  unfold mbind, Nilable.M_bind, M_bind, mret, Nilable.M_ret, M_ret.
  destruct (network w (sent w) _) as [resp|err]; cbn; [|reflexivity].
  destruct (stream_err (Body resp)); reflexivity.
Qed.

Lemma Nilable_Handler_run rt w :
  Nilable.Handler rt w
  = Nilable.Returned tt (snd (Handler (Nilable.context rt) w)).
Proof.
  unfold Nilable.Handler, Handler, Nilable.WriteLLMResult, Nilable.lift,
    ReadLLMArguments, WriteLLMResult, slog.Info, emit.
  unfold mbind, Nilable.M_bind, M_bind, mret, Nilable.M_ret, M_ret.
  cbn -[Nilable.requestOpenWeatherMapAPI requestOpenWeatherMapAPI].
  rewrite Nilable_requestOpenWeatherMapAPI_run.
  destruct (requestOpenWeatherMapAPI _ _ w) as [result w1]. reflexivity.
Qed.

Lemma after_answer_result a :
  fst (after_answer a)
  = match a with
    | inr _ => "can not get the weather information at the moment"
    | inl resp =>
        match stream_err (Body resp) with
        | Some _ => "can not get the weather information at the moment"
        | None => string_of_list_byte (stream (Body resp))
        end
    end.
Proof.
  destruct a as [resp|err]; cbn; [|reflexivity].
  destruct (stream_err (Body resp)); reflexivity.
Qed.

(** C6: with pointers that may be nil and panics that unwind, every
    invocation still runs to its end, whatever the arguments, whatever
    the network answers (a nil response beside the error included) and
    whether or not the host takes the result: [requestOpenWeatherMapAPI]
    returns a string, the body or the fallback, and [Handler] returns
    after handing that string to the host once; neither panics. *)
Theorem C6_returns_and_never_panics rt w :
  let lat := Latitude (args_of (Nilable.context rt)) in
  let lon := Longitude (args_of (Nilable.context rt)) in
  let result :=
    match answer_for (Nilable.context rt) w with
    | inr _ => "can not get the weather information at the moment"
    | inl resp =>
        match stream_err (Body resp) with
        | Some _ => "can not get the weather information at the moment"
        | None => string_of_list_byte (stream (Body resp))
        end
    end in
  exists w1 w',
    Nilable.requestOpenWeatherMapAPI rt lat lon w = Nilable.Returned result w1
    /\ Nilable.Handler rt w = Nilable.Returned tt w'
    /\ Nilable.panicked (Nilable.Handler rt w) = false
    /\ written (output w') = written (output w) ++ [result].
Proof.
  cbn zeta.
  exists (snd (requestOpenWeatherMapAPI
                 (Latitude (args_of (Nilable.context rt)))
                 (Longitude (args_of (Nilable.context rt))) w)),
         (snd (Handler (Nilable.context rt) w)).
  rewrite Nilable_requestOpenWeatherMapAPI_run, Nilable_Handler_run.
  rewrite result_requestOpenWeatherMapAPI, written_Handler.
  fold (answer_for (Nilable.context rt) w).
  rewrite after_answer_result. repeat split.
Qed.

(** Following a nil response panics; the handler on an unreachable
    provider, where the response is nil, and on a host that cannot take
    the result, returns. *)
Example nil_response :
  Nilable.panicked
    (Nilable.Body_of None (fresh (with_key "k3y") unreachable)) = true
  /\ Nilable.Handler (failing_writes London) (fresh (with_key "k3y") unreachable)
     = Nilable.Returned tt
         (snd (Handler (host London) (fresh (with_key "k3y") unreachable))).
Proof. split; vm_compute; reflexivity. Qed.
